(** * GaussianMLPPolicy and OUStrategy (garage): a shallow embedding

    Two source files are embedded here:

    - [garage/exploration_strategies/ou_strategy.py] (class [OUStrategy]),
      in module [OU];
    - [garage/contrib/torch/policies/gaussian_mlp_policy.py]
      (class [GaussianMLPPolicy]), in module [Gaussian].

    numpy's [float64] is Rocq's primitive binary64 [float]; one-dimensional
    arrays are lists; a Python exception is a [Raise] result; [self] and the
    process-wide random source are passed explicitly. *)

From Stdlib Require Import ZArith Lia List Bool Floats.
Import ListNotations.

(** ** Python results *)

Module Py.

(** The exceptions the two files can meet. *)
Inductive exn : Set :=
| AssertionError
| NotImplementedError
| TypeError
| ValueError
| AttributeError.

Inductive result (A : Type) : Type :=
| Ok (a : A)
| Raise (e : exn).

Arguments Ok {A} a.
Arguments Raise {A} e.

Definition bind {A B} (r : result A) (k : A -> result B) : result B :=
  match r with
  | Ok a => k a
  | Raise e => Raise e
  end.

(** A call [f(args)] of a function that takes exactly [n] positional
    arguments: with any other number of them Python raises [TypeError]
    before the body runs. *)
Definition call {A B} (n : nat) (body : list A -> result B) (args : list A)
  : result B :=
  if Nat.eqb (length args) n then body args else Raise TypeError.

(** [assert c] *)
Definition assert (c : bool) : result unit :=
  if c then Ok tt else Raise AssertionError.

End Py.

Import Py.

Declare Scope py_scope.
Delimit Scope py_scope with py.
Notation "x <- r ;; k" := (Py.bind r (fun x => k))
  (at level 61, r at next level, right associativity) : py_scope.
Notation "r ;;; k" := (Py.bind r (fun _ => k))
  (at level 61, right associativity) : py_scope.

(** ** The part of numpy the OU process uses *)

Module np.

Local Open Scope float_scope.

(** A one-dimensional [float64] array. *)
Definition ndarray := list float.

(** [np.ones(n)] *)
Definition ones (n : nat) : ndarray := repeat 1 n.

(** [a * s], [s * a] and [s - a] for an array [a] and a scalar [s]. *)
Definition mul_scalar (a : ndarray) (s : float) : ndarray :=
  map (fun x => x * s) a.

Definition scalar_mul (s : float) (a : ndarray) : ndarray :=
  map (fun x => s * x) a.

Definition scalar_sub (s : float) (a : ndarray) : ndarray :=
  map (fun x => s - x) a.

Fixpoint zip_with (f : float -> float -> float) (a b : ndarray) : ndarray :=
  match a, b with
  | x :: a', y :: b' => f x y :: zip_with f a' b'
  | _, _ => []
  end.

(** A binary ufunc on two one-dimensional arrays: shapes [(n,)] and [(m,)]
    are compatible when [n = m] or one of them is 1 (that operand is
    stretched); any other pair raises [ValueError]. *)
Definition broadcast (f : float -> float -> float) (a b : ndarray)
  : result ndarray :=
  if Nat.eqb (length a) (length b) then Ok (zip_with f a b)
  else match a, b with
       | [x], _ => Ok (map (f x) b)
       | _, [y] => Ok (map (fun x => f x y) a)
       | _, _ => Raise ValueError
       end.

(** Element [i] of an operand once it is stretched. *)
Definition bget (a : ndarray) (i : nat) : option float :=
  match a with
  | [x] => Some x
  | _ => nth_error a i
  end.

Definition add : ndarray -> ndarray -> result ndarray := broadcast PrimFloat.add.

(** The two comparisons of numpy's clip loop on [float64]: a NaN first
    operand is returned; otherwise the first operand is returned only when
    it is strictly beyond the second, so that on a tie, and against a NaN
    second operand, the second one is. *)
Definition fmax (x y : float) : float :=
  if is_nan x then x else if y <? x then x else y.

Definition fmin (x y : float) : float :=
  if is_nan x then x else if x <? y then x else y.

(** [np.clip(a, a_min, a_max)]: each element [x] becomes
    [fmin (fmax x lo) hi], the three operands broadcast together; numpy
    does not check that [a_min <= a_max]. *)
Definition clip (a a_min a_max : ndarray) : result ndarray :=
  (m <- broadcast fmax a a_min ;; broadcast fmin m a_max)%py.

(** The process-wide random source ([numpy.random]), as the sequence of
    standard-normal draws it still has to give. *)
Definition RandomState := nat -> float.

(** [nr.randn(n)]: the next [n] draws. *)
Definition randn (n : nat) (g : RandomState) : ndarray * RandomState :=
  (map g (seq 0 n), fun i => g (n + i)%nat).

End np.

(** ** [ou_strategy.py] *)

Module OU.

Import np.
Local Open Scope float_scope.

(** The gym spaces an environment can declare.  A [Box] carries its bound
    arrays and its shape; the other spaces have no bounds. *)
Inductive Space : Type :=
| Box (low high : ndarray) (shape : list nat)
| Discrete (n : nat)
| MultiBinary (n : nat).

(** [isinstance(space, gym.spaces.Box)] *)
Definition is_Box (space : Space) : bool :=
  match space with
  | Box _ _ _ => true
  | _ => false
  end.

(** [space.shape] *)
Definition shape (space : Space) : list nat :=
  match space with
  | Box _ _ sh => sh
  | Discrete _ => []
  | MultiBinary n => [n]
  end.

(** [space.low] and [space.high]: attributes of a [Box] only. *)
Definition low (space : Space) : result ndarray :=
  match space with
  | Box l _ _ => Ok l
  | _ => Raise AttributeError
  end.

Definition high (space : Space) : result ndarray :=
  match space with
  | Box _ h _ => Ok h
  | _ => Raise AttributeError
  end.

Module EnvSpec.
Record t : Type := { action_space : Space }.
End EnvSpec.

(** The attributes [__init__] sets on [self].  ([Serializable.quick_init]
    only records the constructor's arguments for pickling.) *)
Record OUStrategy : Type := {
  mu : float;
  theta : float;
  sigma : float;
  action_space : Space;
  state : ndarray
}.

(** [self.state = v] *)
Definition set_state (self : OUStrategy) (v : ndarray) : OUStrategy :=
  {| mu := mu self; theta := theta self; sigma := sigma self;
     action_space := action_space self; state := v |}.

(** The defaults of [__init__]: [mu=0, theta=0.15, sigma=0.3]. *)
Definition default_mu : float := 0.
Definition default_theta : float := 0x1.3333333333333p-3.
Definition default_sigma : float := 0x1.3333333333333p-2.

(** What a method runs against: the instance and the random source. *)
Definition World : Type := OUStrategy * RandomState.

Section OUStrategy.

(** [garage.envs.util.flat_dim], which this file imports. *)
Variable flat_dim : Space -> nat.

(** Observations, and what a base policy returns beside its action. *)
Variables Obs Aux : Type.

(** [policy.get_action(observation)]: an action and auxiliary data; the
    policy may draw from the random source. *)
Definition Policy : Type := Obs -> RandomState -> (ndarray * Aux) * RandomState.

(** [reset(self)] *)
Definition reset (self : OUStrategy) : OUStrategy :=
  set_state self (mul_scalar (ones (flat_dim (action_space self))) (mu self)).

(** [__init__(self, env_spec, mu, theta, sigma)] *)
Definition __init__ (env_spec : EnvSpec.t) (mu theta sigma : float)
  : result OUStrategy :=
  (assert (is_Box (EnvSpec.action_space env_spec)) ;;;
   assert (Nat.eqb (length (shape (EnvSpec.action_space env_spec))) 1) ;;;
   let self :=
     {| mu := mu; theta := theta; sigma := sigma;
        action_space := EnvSpec.action_space env_spec;
        state := mul_scalar (ones (flat_dim (EnvSpec.action_space env_spec))) mu |} in
   Ok (reset self))%py.

(** [evolve_state(self)].  The draws are taken before anything can raise;
    [self.state] is assigned only when both sums succeeded. *)
Definition evolve_state (w : World) : result ndarray * World :=
  let (self, g) := w in
  let x := state self in
  let (noise, g') := randn (length x) g in
  match (dx <- add (scalar_mul (theta self) (scalar_sub (mu self) x))
                   (scalar_mul (sigma self) noise) ;;
         add x dx)%py with
  | Ok x' => (Ok x', (set_state self x', g'))
  | Raise e => (Raise e, (self, g'))
  end.

(** [get_action(self, t, observation, policy)] *)
Definition get_action (t : Z) (observation : Obs) (policy : Policy) (w : World)
  : result ndarray * World :=
  let (self, g) := w in
  let '((action, _), g1) := policy observation g in
  let (r, w') := evolve_state (self, g1) in
  match r with
  | Ok ou_state =>
      ((s <- add action ou_state ;;
        lo <- low (action_space (fst w')) ;;
        hi <- high (action_space (fst w')) ;;
        clip s lo hi)%py, w')
  | Raise e => (Raise e, w')
  end.

End OUStrategy.

(** Modelled from the spec: [garage.envs.util.flat_dim] is not among the
    sources; the spec calls it the length of the flattened vector of a
    space.  The theorems hold for any [flat_dim]; this one runs the
    examples. *)
Definition flat_dim_of (space : Space) : nat :=
  match space with
  | Box _ _ sh => fold_right Nat.mul 1%nat sh
  | Discrete n => n
  | MultiBinary n => n
  end.

End OU.

(** ** [gaussian_mlp_policy.py] *)

Module Gaussian.

Local Open Scope float_scope.

(** A space as this file reads it: through its [flat_dim] attribute. *)
Record Space : Type := { flat_dim : nat }.

Record EnvSpec : Type := {
  observation_space : Space;
  action_space : Space
}.

Section GaussianMLPPolicy.

(** torch: tensors, the activation functions, the generator behind
    [sample()], and the tensor operations the file calls. *)
Variables Tensor Activation Generator : Type.
Variable torch_ones : nat -> Tensor.
Variable tensor_scale : float -> Tensor -> Tensor.
Variable tensor_exp : Tensor -> Tensor.
Variable tensor_sum_dim1 : Tensor -> Tensor.

(** The natural logarithm behind [math.log]. *)
Variable ln : float -> float.

(** [garage.contrib.torch.core.mlp.MLP]: its constructor and its call. *)
Variable MLP : Type.
Variable MLP_new : nat -> nat -> list nat -> Activation -> Activation -> MLP.
Variable MLP_call : MLP -> Tensor -> Tensor.

(** [torch.distributions.normal.Normal(loc, scale)] *)
Record Normal : Type := { loc : Tensor; scale : Tensor }.

Variable Normal_sample : Normal -> Generator -> Tensor * Generator.
Variable Normal_log_prob : Normal -> Tensor -> Tensor.

(** [nn.Parameter(data, requires_grad=True)] *)
Record NNParameter : Type := { data : Tensor; requires_grad : bool }.

Definition nn_Parameter (t : Tensor) : NNParameter :=
  {| data := t; requires_grad := true |}.

(** [math.log(x)]: a [ValueError] for [x <= 0]. *)
Definition math_log (x : float) : result float :=
  if x <=? 0 then Raise ValueError else Ok (ln x).

(** [nn.Module.__init__], a plain function of one parameter, [self], when it
    is reached through the class. *)
Definition nn_Module___init__ : list unit -> result unit :=
  Py.call 1 (fun _ => Ok tt).

Record GaussianMLPPolicy : Type := {
  mu : MLP;
  log_std : NNParameter
}.

(** Lines 38 to 44 of [__init__]: the two attributes. *)
Definition init_attributes (env_spec : EnvSpec) (hidden_sizes : list nat)
    (learn_std : bool) (init_std : float)
    (hidden_nonlinearity output_nonlinearity : Activation)
  : result GaussianMLPPolicy :=
  let obs_dim := flat_dim (observation_space env_spec) in
  let action_dim := flat_dim (action_space env_spec) in
  let mlp := MLP_new obs_dim action_dim hidden_sizes
                     hidden_nonlinearity output_nonlinearity in
  (l <- math_log init_std ;;
   Ok {| mu := mlp;
         log_std := nn_Parameter (tensor_scale l (torch_ones action_dim)) |})%py.

(** [__init__(self, env_spec, hidden_sizes, learn_std, init_std,
    adaptive_std, hidden_nonlinearity, output_nonlinearity)]; line 36 calls
    [nn.Module.__init__()] with no argument. *)
Definition __init__ (env_spec : EnvSpec) (hidden_sizes : list nat)
    (learn_std : bool) (init_std : float) (adaptive_std : bool)
    (hidden_nonlinearity output_nonlinearity : Activation)
  : result GaussianMLPPolicy :=
  if adaptive_std then Raise NotImplementedError
  else
    (nn_Module___init__ [] ;;;
     init_attributes env_spec hidden_sizes learn_std init_std
                     hidden_nonlinearity output_nonlinearity)%py.

(** [policy(self, obs)] *)
Definition policy (self : GaussianMLPPolicy) (obs : Tensor) : Normal :=
  {| loc := MLP_call (mu self) obs;
     scale := tensor_exp (data (log_std self)) |}.

(** [logpdf(self, obs, action)], called on [self] with the positional
    arguments [args]: it takes two. *)
Definition logpdf (self : GaussianMLPPolicy) : list Tensor -> result Tensor :=
  Py.call 2 (fun args =>
    match args with
    | [obs; action] =>
        Ok (tensor_sum_dim1 (Normal_log_prob (policy self obs) action))
    | _ => Raise TypeError
    end).

(** [sample(self, obs)]; line 51 is [self.logpdf(actions)]. *)
Definition sample (self : GaussianMLPPolicy) (obs : Tensor) (g : Generator)
  : result (Tensor * Tensor) * Generator :=
  let (actions, g') := Normal_sample (policy self obs) g in
  ((lp <- logpdf self [actions] ;; Ok (actions, lp))%py, g').

(** [forward(self, obs)] *)
Definition forward (self : GaussianMLPPolicy) (obs : Tensor) (g : Generator)
  : result (Tensor * Tensor) * Generator :=
  sample self obs g.

End GaussianMLPPolicy.

End Gaussian.

(** ** Vocabulary of the statements, and inputs to run them on *)

Module Spec.

Import np OU.
Local Open Scope float_scope.

(** One Euler step of [dx = theta*(mu - x) + sigma*dW] on one component,
    with the operations and their order as [evolve_state] writes them. *)
Definition euler_step (theta mu sigma x n : float) : float :=
  x + (theta * (mu - x) + sigma * n).

(** A continuous space of rank one: a [Box] whose shape has one axis. *)
Definition rank1_Box (space : Space) : bool :=
  match space with
  | Box _ _ [_] => true
  | _ => false
  end.

(** A bounded box: every lower and upper bound is a finite number. *)
Definition bounded_Box (space : Space) : bool :=
  match space with
  | Box lo hi _ => forallb is_finite lo && forallb is_finite hi
  | _ => false
  end.

(** [Box(low=-inf, high=inf, shape=(1,))]: one axis, no bound. *)
Definition unbounded_box : Space := Box [neg_infinity] [infinity] [1%nat].

(** [v] lies in the closed interval from [lo] to [hi]. *)
Definition within (lo hi v : float) : bool := (lo <=? v) && (v <=? hi).

(** The length of [state] is the flat dimension of the action space. *)
Definition state_dim_ok (flat_dim : Space -> nat) (self : OUStrategy) : Prop :=
  length (state self) = flat_dim (action_space self).

(** [Box(low=-1, high=1, shape=(1,))], as in the file's [__main__]. *)
Definition unit_box : Space := Box [-1] [1] [1%nat].

Definition unit_env : EnvSpec.t := {| EnvSpec.action_space := unit_box |}.

(** A box whose bounds are the wrong way round. *)
Definition inverted_box : Space := Box [1] [-1] [1%nat].

(** An instance over [space] with the given parameters and state. *)
Definition ou (space : Space) (mu theta sigma : float) (x : ndarray)
  : OUStrategy :=
  {| mu := mu; theta := theta; sigma := sigma;
     action_space := space; state := x |}.

(** A base policy that always answers [a], and a random source whose every
    draw is [0.5]. *)
Definition const_policy (a : ndarray) : Policy unit unit :=
  fun _ g => ((a, tt), g).

Definition half_draws : RandomState := fun _ => 0.5.

End Spec.

(** ** The [__main__] block of [ou_strategy.py] *)

Module Script.

Import np OU.
Local Open Scope float_scope.

(** The loop indexes each returned state at [0], which adds [IndexError] to
    what [evolve_state] itself can raise. *)
Inductive exn : Set :=
| Builtin (e : Py.exn)
| IndexError.

(** Lines 68 to 70: [n] rounds of [states.append(ou.evolve_state()[0])],
    from the list [states] collected so far. *)
Fixpoint collect_states (n : nat) (states : list float) (w : World)
  : (list float + exn) * World :=
  match n with
  | O => (inl states, w)
  | S n' =>
      let (r, w') := evolve_state w in
      match r with
      | Raise e => (inr (Builtin e), w')
      | Ok [] => (inr IndexError, w')
      | Ok (x0 :: _) => collect_states n' (states ++ [x0]) w'
      end
  end.

Section Main.

Variable flat_dim : Space -> nat.

(** Lines 60 to 70: the process over [Box(low=-1, high=1, shape=(1,))] with
    [mu=0, theta=0.15, sigma=0.3] (the extra keyword [dtype] goes to
    [**kwargs], which [__init__] does not read), then 1000 rounds.  The
    plot that follows is not part of the model. *)
Definition main (g : RandomState) : list float + exn :=
  match __init__ flat_dim
          {| EnvSpec.action_space := Box [-1] [1] [1%nat] |}
          0 default_theta default_sigma with
  | Raise e => inr (Builtin e)
  | Ok ou => fst (collect_states 1000 [] (ou, g))
  end.

End Main.

End Script.

(** ** Vocabulary for runs of several steps *)

Module Trace.

Import np OU.
Local Open Scope float_scope.

(** The world after [k] calls of [evolve_state]. *)
Definition after (k : nat) (w : World) : World :=
  Nat.iter k (fun w' => snd (evolve_state w')) w.

(** The first component of the state (0 for an empty one). *)
Definition first (self : OUStrategy) : float := hd 0 (state self).

(** What clipping does to one non-NaN sum [s] under ordered bounds: [s]
    strictly inside them, and otherwise the bound that [s] has reached or
    passed (the upper one when the two bounds are equal). *)
Definition saturate (l h s : float) : float :=
  if l <? s then (if s <? h then s else h)
  else (if l <? h then l else h).

End Trace.

(** ** Facts about binary64 *)

Module Float64.

Local Open Scope float_scope.

(** The specification-level floats that are zeros or finite numbers. *)
Inductive SFfinite : spec_float -> Prop :=
| SFfinite_zero s : SFfinite (S754_zero s)
| SFfinite_num s m e : SFfinite (S754_finite s m e).

Lemma SFcompare_refl (x : spec_float) :
  x <> S754_nan -> SFcompare x x = Some Eq.
Proof.
  destruct x as [s|s| |s m e]; simpl; intros H; try congruence.
  - now destruct s.
  - rewrite Z.compare_refl.
    destruct s; fold (Pos.compare m m); now rewrite Pos.compare_refl.
Qed.

Lemma is_nan_false (x : float) :
  is_nan x = false <-> Prim2SF x <> S754_nan.
Proof.
  unfold is_nan. rewrite eqb_spec. unfold SFeqb. split.
  - intros H E. rewrite E in H. discriminate H.
  - intros H. now rewrite (SFcompare_refl _ H).
Qed.

Lemma leb_refl (x : float) : is_nan x = false -> (x <=? x) = true.
Proof.
  intros H. apply is_nan_false in H.
  rewrite leb_spec. unfold SFleb. now rewrite (SFcompare_refl _ H).
Qed.

Lemma leb_true_not_nan (x y : float) :
  (x <=? y) = true -> is_nan x = false /\ is_nan y = false.
Proof.
  rewrite leb_spec, !is_nan_false. unfold SFleb.
  destruct (Prim2SF x), (Prim2SF y); simpl; intros H;
    try discriminate H; split; discriminate.
Qed.

(** A canonical mantissa needs no shift. *)
Lemma shr_fexp_canonical (m : positive) (e : Z) :
  fexp prec emax (Z.pos (digits2_pos m) + e) = e ->
  shr_fexp prec emax (Z.pos m) e loc_Exact =
  ({| shr_m := Z.pos m; shr_r := false; shr_s := false |}, e).
Proof.
  intros Hc. unfold shr_fexp. cbn [Zdigits2 shr_record_of_loc].
  now rewrite Hc, Z.sub_diag.
Qed.

(** The product of the mantissa of [1.0], which is [2^52], with a canonical
    mantissa shifts back by 52 bits, all of them zero. *)
Lemma shr_fexp_times_one (m : positive) (e : Z) :
  fexp prec emax (Z.pos (digits2_pos m) + e) = e ->
  shr_fexp prec emax (Z.pos (4503599627370496 * m)) (-52 + e) loc_Exact =
  ({| shr_m := Z.pos m; shr_r := false; shr_s := false |}, e).
Proof.
  intros Hc. unfold shr_fexp.
  cbn [Pos.mul Zdigits2 digits2_pos shr_record_of_loc].
  match goal with
  | |- shr ?r ?e0 ?n = _ =>
      replace n with 52%Z
        by (unfold fexp, SpecFloat.emin, prec, emax in *; lia)
  end.
  cbn [shr iter_pos shr_1 orb]. f_equal. lia.
Qed.

Lemma SFmul_1_l (x : spec_float) :
  valid_binary x = true -> SF64mul (Prim2SF 1) x = x.
Proof.
  change (Prim2SF 1) with (S754_finite false 4503599627370496 (-52)).
  destruct x as [s|s| |s m e]; try reflexivity.
  unfold valid_binary, SpecFloat.valid_binary, bounded, canonical_mantissa.
  intros H. apply andb_prop in H. destruct H as [Hc Hb].
  apply Z.eqb_eq in Hc.
  unfold SF64mul, SFmul, binary_round_aux.
  rewrite (shr_fexp_times_one _ _ Hc).
  cbn [xorb shr_m loc_of_shr_record round_nearest_even].
  rewrite (shr_fexp_canonical _ _ Hc). cbn [shr_m]. now rewrite Hb.
Qed.

(** [1.0 * x] is [x], for every binary64 [x]. *)
Lemma mul_1_l (x : float) : 1 * x = x.
Proof.
  apply Prim2SF_inj. rewrite mul_spec. apply SFmul_1_l, Prim2SF_valid.
Qed.

Lemma is_finite_SF (x : float) : is_finite x = true -> SFfinite (Prim2SF x).
Proof.
  unfold is_finite, is_nan, is_infinity.
  rewrite !eqb_spec, abs_spec.
  change (Prim2SF infinity) with (S754_infinity false).
  destruct (Prim2SF x) as [s|s| |s m e]; intros H; try constructor.
  - change (SFeqb (S754_infinity false) (S754_infinity false)) with true in H.
    now rewrite orb_true_r in H.
  - discriminate H.
Qed.

Lemma SFadd_opp (s : bool) (m : positive) (e : Z) :
  SF64add (S754_finite s m e) (S754_finite (negb s) m e) = S754_zero false.
Proof.
  unfold SF64add, SFadd. rewrite Z.min_id.
  unfold shl_align. rewrite Z.sub_diag. cbn [fst].
  destruct s; cbn [negb cond_Zopp];
    rewrite ?Z.add_opp_diag_l, ?Z.add_opp_diag_r; reflexivity.
Qed.

(** With [theta = 1], [sigma = 0] and [mu = 0] the step from a finite [x]
    under a finite draw lands on [0]: [0 - x] is exact, and so is
    [x + (-x)]. *)
Lemma reversion_to_zero (x n : float) :
  is_finite x = true -> is_finite n = true ->
  x + (1 * (0 - x) + 0 * n) = 0.
Proof.
  intros Hx Hn. apply is_finite_SF in Hx, Hn.
  rewrite mul_1_l. apply Prim2SF_inj.
  rewrite add_spec, add_spec, !mul_spec, sub_spec.
  change (Prim2SF 0) with (S754_zero false).
  destruct Hx as [sx|sx mx ex], Hn as [sn|sn mn en];
    try (destruct sx, sn; reflexivity);
    cbn [SF64sub SFsub SF64mul SFmul xorb];
    unfold SF64add at 2; cbn [SFadd]; apply SFadd_opp.
Qed.

Lemma ltb_leb (x y : float) : (x <? y) = true -> (x <=? y) = true.
Proof.
  rewrite ltb_spec, leb_spec. unfold SFltb, SFleb.
  destruct (SFcompare (Prim2SF x) (Prim2SF y)) as [[| |]|];
    intros H; try discriminate H; reflexivity.
Qed.

(** Clipping one component. *)
Lemma clip_within (x lo hi : float) :
  (lo <=? hi) = true -> is_nan x = false ->
  Spec.within lo hi (np.fmin (np.fmax x lo) hi) = true.
Proof.
  intros Hb Hx. destruct (leb_true_not_nan _ _ Hb) as [Hlo Hhi].
  unfold Spec.within, np.fmax. rewrite Hx.
  destruct (lo <? x) eqn:E1; unfold np.fmin.
  - rewrite Hx. destruct (x <? hi) eqn:E2.
    + now rewrite (ltb_leb _ _ E1), (ltb_leb _ _ E2).
    + now rewrite Hb, (leb_refl _ Hhi).
  - rewrite Hlo. destruct (lo <? hi).
    + now rewrite (leb_refl _ Hlo), Hb.
    + now rewrite Hb, (leb_refl _ Hhi).
Qed.

End Float64.

(** ** Facts about the array operations *)

Module NumpyFacts.

Import np.
Local Open Scope float_scope.

Lemma zip_with_length f (a b : ndarray) :
  length a = length b -> length (zip_with f a b) = length a.
Proof.
  revert b. induction a as [|x a IH]; intros [|y b] H; simpl in *;
    try discriminate; auto.
Qed.

Lemma zip_with_nth f (a b : ndarray) i v :
  nth_error (zip_with f a b) i = Some v ->
  exists x y, nth_error a i = Some x /\ nth_error b i = Some y /\ v = f x y.
Proof.
  revert b i. induction a as [|x a IH]; intros [|y b] [|i] H; simpl in *;
    try discriminate.
  - injection H as <-. now exists x, y.
  - now apply IH.
Qed.

Lemma map_nth_some (g : float -> float) (l : ndarray) i v :
  nth_error (map g l) i = Some v ->
  exists x, nth_error l i = Some x /\ v = g x.
Proof.
  rewrite nth_error_map. destruct (nth_error l i) as [x|]; [|discriminate].
  intros [= <-]. now exists x.
Qed.

(** Fusing the maps of [evolve_state] into one pass over state and draws. *)
Lemma zip_with_step theta mu sigma (x noise : ndarray) :
  zip_with PrimFloat.add x
    (zip_with PrimFloat.add (scalar_mul theta (scalar_sub mu x))
                            (scalar_mul sigma noise)) =
  zip_with (Spec.euler_step theta mu sigma) x noise.
Proof.
  revert noise. induction x as [|v x IH]; intros [|n noise]; simpl;
    try reflexivity.
  now rewrite IH.
Qed.

Lemma zip_with_repeat f (a b : ndarray) (c : float) :
  length a = length b ->
  (forall x n, In x a -> In n b -> f x n = c) ->
  zip_with f a b = repeat c (length a).
Proof.
  revert b. induction a as [|x a IH]; intros [|n b] Hl H; simpl in *;
    try discriminate; auto.
  rewrite (H x n) by auto. f_equal. apply IH; auto.
Qed.

Lemma broadcast_same_length f (a b : ndarray) :
  length a = length b -> broadcast f a b = Ok (zip_with f a b).
Proof.
  intros H. unfold broadcast. now rewrite H, Nat.eqb_refl.
Qed.

Lemma randn_length n g : length (fst (randn n g)) = n.
Proof. unfold randn. simpl. now rewrite length_map, length_seq. Qed.

Lemma randn_In n g v : In v (fst (randn n g)) -> exists i, v = g i.
Proof.
  unfold randn. simpl. rewrite in_map_iff. intros [i [<- _]]. now exists i.
Qed.

Lemma mul_scalar_ones n (s : float) : mul_scalar (ones n) s = repeat s n.
Proof.
  unfold mul_scalar, ones. induction n as [|n IH]; simpl; [reflexivity|].
  now rewrite IH, Float64.mul_1_l.
Qed.

Lemma nth_error_bget (a : ndarray) i v :
  nth_error a i = Some v -> bget a i = Some v.
Proof.
  destruct a as [|x [|y a]]; simpl; auto.
  destruct i as [|i]; simpl; auto. now destruct i.
Qed.

(** Each element of a broadcast result comes from the elements of the
    operands at the same (stretched) index. *)
Lemma broadcast_nth f (a b r : ndarray) i v :
  broadcast f a b = Ok r -> nth_error r i = Some v ->
  exists x y, bget a i = Some x /\ bget b i = Some y /\ v = f x y.
Proof.
  unfold broadcast. destruct (Nat.eqb (length a) (length b)).
  - intros [= <-] H. apply zip_with_nth in H.
    destruct H as (x & y & Ha & Hb & ->).
    exists x, y. auto using nth_error_bget.
  - destruct a as [|x [|x' a]].
    + destruct b as [|y [|y' b]]; intros [= <-] H; destruct i; discriminate H.
    + intros [= <-] H. apply (map_nth_some (f x) b) in H.
      destruct H as (y & Hy & ->).
      exists x, y. auto using nth_error_bget.
    + destruct b as [|y [|y' b]]; try discriminate.
      intros [= <-] H.
      apply (map_nth_some (fun x0 => f x0 y) (x :: x' :: a)) in H.
      destruct H as (x0 & Hx0 & ->).
      exists x0, y. auto using nth_error_bget.
Qed.

Lemma broadcast_length_1 f (a b : ndarray) v :
  broadcast f a b = Ok [v] -> length a = 1%nat /\ length b = 1%nat.
Proof.
  unfold broadcast. destruct (Nat.eqb (length a) (length b)) eqn:E.
  - apply Nat.eqb_eq in E. intros [= H].
    assert (L : length (zip_with f a b) = 1%nat) by now rewrite H.
    rewrite zip_with_length in L by assumption. lia.
  - apply Nat.eqb_neq in E.
    destruct a as [|x [|x' a]].
    + destruct b as [|y [|y' b]]; discriminate.
    + intros [= H]. destruct b as [|y [|y' b]]; simpl in *; try discriminate.
      lia.
    + destruct b as [|y [|y' b]]; discriminate.
Qed.

Lemma broadcast_bget f (a b r : ndarray) i v :
  broadcast f a b = Ok r -> bget r i = Some v ->
  exists x y, bget a i = Some x /\ bget b i = Some y /\ v = f x y.
Proof.
  intros H Hv. destruct r as [|v0 [|v1 r]].
  - destruct i; discriminate Hv.
  - destruct (broadcast_length_1 _ _ _ _ H) as [La Lb].
    destruct a as [|x [|? ?]]; try discriminate La.
    destruct b as [|y [|? ?]]; try discriminate Lb.
    apply (broadcast_nth _ _ _ _ 0%nat v) in H; [exact H|].
    simpl in Hv. exact Hv.
  - now apply (broadcast_nth _ _ _ _ i v) in H.
Qed.

Lemma clip_nth (s lo hi r : ndarray) i v :
  clip s lo hi = Ok r -> nth_error r i = Some v ->
  exists x l h, bget s i = Some x /\ bget lo i = Some l /\ bget hi i = Some h /\
                v = fmin (fmax x l) h.
Proof.
  unfold clip. destruct (broadcast fmax s lo) as [m|e] eqn:Hm; simpl;
    [|discriminate].
  intros Hr Hv.
  destruct (broadcast_nth _ _ _ _ _ _ Hr Hv) as (mv & h & Hmv & Hh & ->).
  destruct (broadcast_bget _ _ _ _ _ _ Hm Hmv) as (x & l & Hx & Hl & ->).
  now exists x, l, h.
Qed.

End NumpyFacts.

(** ** The OU process *)

Module OUTheory.

Import np OU Spec NumpyFacts.
Local Open Scope float_scope.

Section Process.

Variable flat_dim : Space -> nat.
Variables Obs Aux : Type.

(** [evolve_state] never raises: the state and the draws have one length,
    so both sums are element-wise. *)
Lemma evolve_state_eq (self : OUStrategy) (g : RandomState) :
  evolve_state (self, g) =
  (Ok (zip_with (euler_step (theta self) (mu self) (sigma self))
                (state self) (fst (randn (length (state self)) g))),
   (set_state self
      (zip_with (euler_step (theta self) (mu self) (sigma self))
                (state self) (fst (randn (length (state self)) g))),
    snd (randn (length (state self)) g))).
Proof.
  unfold evolve_state.
  pose proof (randn_length (length (state self)) g) as Hn.
  destruct (randn (length (state self)) g) as [noise g'].
  cbn [fst snd] in *. unfold add.
  rewrite (broadcast_same_length _ (scalar_mul _ _) (scalar_mul _ _))
    by (unfold scalar_mul, scalar_sub; now rewrite !length_map).
  cbn [Py.bind].
  rewrite broadcast_same_length
    by (rewrite zip_with_length; unfold scalar_mul, scalar_sub;
        now rewrite !length_map).
  now rewrite zip_with_step.
Qed.

Lemma evolve_state_length (self : OUStrategy) (g : RandomState) :
  length (state (fst (snd (evolve_state (self, g))))) = length (state self).
Proof.
  rewrite evolve_state_eq. cbn [fst snd set_state state].
  apply zip_with_length. now rewrite randn_length.
Qed.

(** The world [get_action] leaves behind is the one [evolve_state] made,
    whether or not the sum or the clipping raised afterwards. *)
Lemma get_action_world t observation (policy : Policy Obs Aux) self g :
  snd (get_action Obs Aux t observation policy (self, g)) =
  snd (evolve_state (self, snd (policy observation g))).
Proof.
  unfold get_action.
  destruct (policy observation g) as [[action aux] g1]. cbn [snd].
  now rewrite evolve_state_eq.
Qed.

Lemma get_action_result t observation (policy : Policy Obs Aux) self g lo hi sh :
  action_space self = Box lo hi sh ->
  fst (get_action Obs Aux t observation policy (self, g)) =
  (s <- add (fst (fst (policy observation g)))
            (state (fst (snd (get_action Obs Aux t observation policy (self, g))))) ;;
   clip s lo hi)%py.
Proof.
  intros Hbox. rewrite get_action_world. unfold get_action.
  destruct (policy observation g) as [[action aux] g1]. cbn [fst snd].
  rewrite evolve_state_eq. cbn [fst snd set_state action_space state].
  rewrite Hbox. cbn [low high].
  destruct (add action _); reflexivity.
Qed.

Lemma reset_length (self : OUStrategy) :
  length (state (reset flat_dim self)) =
  flat_dim (action_space (reset flat_dim self)).
Proof.
  unfold reset, set_state. cbn [state action_space].
  now rewrite mul_scalar_ones, repeat_length.
Qed.

(** Where each component of a returned action comes from: the operands at
    its index, read with numpy's stretching of a length-one array, and the
    clipping of their sum. *)
Lemma get_action_component
    t observation (policy : Policy Obs Aux) self g lo hi sh r w' i v :
  action_space self = Box lo hi sh ->
  get_action Obs Aux t observation policy (self, g) = (Ok r, w') ->
  nth_error r i = Some v ->
  exists a n l h,
    bget (fst (fst (policy observation g))) i = Some a /\
    bget (state (fst w')) i = Some n /\
    bget lo i = Some l /\ bget hi i = Some h /\
    v = fmin (fmax (a + n) l) h.
Proof.
  intros Hbox Hrun Hv.
  pose proof (get_action_result t observation policy self g lo hi sh Hbox) as Hr.
  rewrite Hrun in Hr. cbn [fst snd] in Hr.
  destruct (add (fst (fst (policy observation g))) (state (fst w')))
    as [s|e] eqn:Hs; [|discriminate Hr].
  cbn [Py.bind] in Hr. symmetry in Hr.
  destruct (clip_nth _ _ _ _ _ _ Hr Hv) as (x & l & h & Hx & Hl & Hh & ->).
  destruct (broadcast_bget _ _ _ _ _ _ Hs Hx) as (a & n & Ha & Hn & ->).
  now exists a, n, l, h.
Qed.

(** C3 (amended).  A component [v] of the action [get_action] returns lies
    in the closed interval from [l] to [h], the stored bounds at its index,
    provided [l <= h] and the sum of the base action [a] and the evolved
    noise state [n] at that index is not NaN. *)
Theorem get_action_within_bounds
    t observation (policy : Policy Obs Aux) self g lo hi sh r w' i v a n l h :
  action_space self = Box lo hi sh ->
  get_action Obs Aux t observation policy (self, g) = (Ok r, w') ->
  nth_error r i = Some v ->
  bget (fst (fst (policy observation g))) i = Some a ->
  bget (state (fst w')) i = Some n ->
  bget lo i = Some l ->
  bget hi i = Some h ->
  (l <=? h) = true ->
  is_nan (a + n) = false ->
  within l h v = true.
Proof.
  intros Hbox Hrun Hv Ha Hn Hl Hh Hb Hnan.
  destruct (get_action_component _ _ _ _ _ _ _ _ _ _ _ _ Hbox Hrun Hv)
    as (a' & n' & l' & h' & Ha' & Hn' & Hl' & Hh' & ->).
  rewrite Ha in Ha'. rewrite Hn in Hn'. rewrite Hl in Hl'. rewrite Hh in Hh'.
  injection Ha' as <-. injection Hn' as <-.
  injection Hl' as <-. injection Hh' as <-.
  now apply Float64.clip_within.
Qed.

(** C4 (amended).  One call of [evolve_state] from state [x] draws one
    number per component, sets the state to
    [x + (theta*(mu - x) + sigma*N)] component by component in binary64,
    and returns that new state.  For [theta = 1], [sigma = 0] and [mu = 0]
    the new state is [mu] in every component, when the state and the draws
    are finite. *)
Theorem evolve_state_euler (self : OUStrategy) (g : RandomState) :
  evolve_state (self, g) =
  (Ok (zip_with (euler_step (theta self) (mu self) (sigma self))
                (state self) (fst (randn (length (state self)) g))),
   (set_state self
      (zip_with (euler_step (theta self) (mu self) (sigma self))
                (state self) (fst (randn (length (state self)) g))),
    snd (randn (length (state self)) g))) /\
  (theta self = 1 -> sigma self = 0 -> mu self = 0 ->
   (forall v, In v (state self) -> is_finite v = true) ->
   (forall k, is_finite (g k) = true) ->
   state (fst (snd (evolve_state (self, g)))) =
   repeat (mu self) (length (state self))).
Proof.
  split; [apply evolve_state_eq|].
  intros Ht Hs Hm Hx Hg. rewrite evolve_state_eq.
  cbn [fst snd set_state state]. rewrite Ht, Hs, Hm.
  apply zip_with_repeat; [now rewrite randn_length|].
  intros x n Ix In_. apply randn_In in In_. destruct In_ as [k ->].
  apply Float64.reversion_to_zero; auto.
Qed.

(** C5 (amended).  [__init__] raises [AssertionError] (the spec's
    InvalidSpaceError) unless the action space is a [Box] of rank one,
    whatever its bounds, which are not read; when it is, the instance it
    returns keeps the parameters and the space, and its state is [mu] in
    each of the [flat_dim] components. *)
Theorem init_rank1_Box_or_fail (env_spec : EnvSpec.t) (m th sg : float) :
  __init__ flat_dim env_spec m th sg =
  if rank1_Box (EnvSpec.action_space env_spec)
  then Ok {| mu := m; theta := th; sigma := sg;
             action_space := EnvSpec.action_space env_spec;
             state := repeat m (flat_dim (EnvSpec.action_space env_spec)) |}
  else Raise AssertionError.
Proof.
  unfold __init__, reset, set_state.
  destruct env_spec as [[lo hi [|d [|d' sh]]| |]]; cbn; try reflexivity.
  now rewrite mul_scalar_ones.
Qed.

(** C6.  [reset] replaces the state, whatever it was, by [mu] repeated
    over the [flat_dim] components and leaves every other attribute as it
    was; the new instance is all it gives back. *)
Theorem reset_state_is_mu (self : OUStrategy) :
  reset flat_dim self =
  {| mu := mu self; theta := theta self; sigma := sigma self;
     action_space := action_space self;
     state := repeat (mu self) (flat_dim (action_space self)) |}.
Proof.
  unfold reset, set_state. now rewrite mul_scalar_ones.
Qed.

(** C8.  The timestep does not reach the result of [get_action]: two calls
    that differ only in [t], from the same instance and random source, give
    the same action (or exception), the same new state and the same
    remaining draws. *)
Theorem get_action_ignores_t
    (t1 t2 : Z) observation (policy : Policy Obs Aux) (w : World) :
  get_action Obs Aux t1 observation policy w =
  get_action Obs Aux t2 observation policy w.
Proof. reflexivity. Qed.

(** C9.  The length of [state] is the flat dimension of the action space
    after a successful [__init__], and [reset], [evolve_state] and
    [get_action] keep it so. *)
Theorem state_dim_invariant :
  (forall env_spec m th sg self,
      __init__ flat_dim env_spec m th sg = Ok self ->
      state_dim_ok flat_dim self) /\
  (forall self, state_dim_ok flat_dim (reset flat_dim self)) /\
  (forall self g,
      state_dim_ok flat_dim self ->
      state_dim_ok flat_dim (fst (snd (evolve_state (self, g))))) /\
  (forall t observation (policy : Policy Obs Aux) self g,
      state_dim_ok flat_dim self ->
      state_dim_ok flat_dim
        (fst (snd (get_action Obs Aux t observation policy (self, g))))).
Proof.
  unfold state_dim_ok. repeat split.
  - intros env_spec m th sg self. unfold __init__.
    destruct (is_Box _); [|discriminate].
    destruct (Nat.eqb _ 1); [|discriminate].
    intros [= <-]. apply reset_length.
  - intros self. apply reset_length.
  - intros self g H. rewrite evolve_state_length.
    now rewrite evolve_state_eq.
  - intros t observation policy self g H. rewrite get_action_world.
    rewrite evolve_state_length. now rewrite evolve_state_eq.
Qed.

End Process.

(** *** Runs on concrete inputs *)

(** The spec's example, with the defaults [theta=0.15], [sigma=0.3]: bounds
    [-1] and [1], base action [0.875], noise state [5], which evolves to
    [4.4]; the action returned is [1]. *)
Lemma get_action_within_bounds_witness :
  let self := ou unit_box 0 default_theta default_sigma [5] in
  let run := get_action unit unit 0 tt (const_policy [0.875]) (self, half_draws) in
  fst run = Ok [1] /\
  state (fst (snd run)) = [0x1.199999999999ap+2] /\
  within (-1) 1 1 = true.
Proof.
  intros self run. split; [reflexivity|]. split; [reflexivity|].
  exact (get_action_within_bounds unit unit 0%Z tt (const_policy [0.875])
           self half_draws [-1] [1] [1%nat] [1] (snd run) 0%nat
           1 0.875 0x1.199999999999ap+2 (-1) 1
           eq_refl eq_refl eq_refl eq_refl eq_refl eq_refl eq_refl
           eq_refl eq_refl).
Defined.

(** C3, as stated, fails twice over.  A base action that is NaN comes back
    as NaN, which lies in no interval; and over a box with [low = 1] and
    [high = -1] the action returned is [-1], below [low]. *)
Lemma get_action_outside_bounds :
  (fst (get_action unit unit 0 tt (const_policy [nan])
          (ou unit_box 0 default_theta default_sigma [0], half_draws))
   = Ok [nan] /\ within (-1) 1 nan = false) /\
  (fst (get_action unit unit 0 tt (const_policy [0])
          (ou inverted_box 0 default_theta default_sigma [0], half_draws))
   = Ok [-1] /\ within 1 (-1) (-1) = false).
Proof. repeat split; reflexivity. Qed.

(** C5, as stated, fails on a box of one axis without bounds:
    construction succeeds, with the state at [mu]. *)
Lemma init_accepts_unbounded_box :
  bounded_Box unbounded_box = false /\
  __init__ flat_dim_of {| EnvSpec.action_space := unbounded_box |}
           0 default_theta default_sigma =
  Ok (ou unbounded_box 0 default_theta default_sigma [0]).
Proof. split; reflexivity. Qed.

(** Full reversion to [mu = 0] from the finite state [5]. *)
Lemma evolve_state_euler_witness :
  let self := ou unit_box 0 1 0 [5] in
  state (fst (snd (evolve_state (self, half_draws)))) = [0].
Proof.
  intros self.
  refine (proj2 (evolve_state_euler self half_draws)
            eq_refl eq_refl eq_refl _ _).
  - intros v [<-|[]]. reflexivity.
  - intros k. reflexivity.
Defined.

(** C4, as stated, fails for [mu = 1] from the state [1e20], with
    [theta = 1] and [sigma = 0]: [1 - 1e20] rounds to [-1e20], and the new
    state is [0], not [mu]. *)
Lemma evolve_state_rounding :
  let self := ou unit_box 1 1 0 [1e20] in
  state (fst (snd (evolve_state (self, half_draws)))) = [0] /\
  state (fst (snd (evolve_state (self, half_draws)))) <>
  repeat (mu self) (length (state self)).
Proof.
  intros self. split; [reflexivity|]. intros H.
  apply (f_equal (fun l => match l with
                           | v :: _ => PrimFloat.eqb v 1
                           | [] => true
                           end)) in H.
  vm_compute in H. discriminate H.
Qed.

(** The same with everyday numbers: from [1.0] towards [mu = 0.1] the new
    state is [0.09999999999999998]. *)
Example evolve_state_rounding_tenth :
  let tenth := 0x1.999999999999ap-4 in
  state (fst (snd (evolve_state (ou unit_box tenth 1 0 [1], half_draws))))
  = [0x1.9999999999998p-4].
Proof. reflexivity. Qed.

(** The invariant along a run: construction over the unit box, then one
    action. *)
Lemma state_dim_invariant_witness :
  exists self,
    __init__ flat_dim_of unit_env default_mu default_theta default_sigma = Ok self /\
    state_dim_ok flat_dim_of self /\
    state_dim_ok flat_dim_of
      (fst (snd (get_action unit unit 0 tt (const_policy [0.5]) (self, half_draws)))).
Proof.
  destruct (state_dim_invariant flat_dim_of unit unit) as (Hi & _ & _ & Hg).
  pose proof (Hi unit_env default_mu default_theta default_sigma
                 (ou unit_box 0 default_theta default_sigma [0]) eq_refl) as H0.
  exists (ou unit_box 0 default_theta default_sigma [0]).
  split; [reflexivity|]. split; [exact H0|]. now apply Hg.
Defined.

End OUTheory.

(** ** The Gaussian policy *)

Module GaussianTheory.

Import Gaussian.
Local Open Scope float_scope.

Section Policy.

Variables Tensor Activation Generator : Type.
Variable torch_ones : nat -> Tensor.
Variable tensor_scale : float -> Tensor -> Tensor.
Variable tensor_exp : Tensor -> Tensor.
Variable tensor_sum_dim1 : Tensor -> Tensor.
Variable ln : float -> float.
Variable MLP : Type.
Variable MLP_new : nat -> nat -> list nat -> Activation -> Activation -> MLP.
Variable MLP_call : MLP -> Tensor -> Tensor.
Variable Normal_sample : Normal Tensor -> Generator -> Tensor * Generator.
Variable Normal_log_prob : Normal Tensor -> Tensor -> Tensor.

Abbreviation Policy := (GaussianMLPPolicy Tensor MLP).
Abbreviation init :=
  (__init__ Tensor Activation torch_ones tensor_scale ln MLP MLP_new).
Abbreviation init_attributes :=
  (init_attributes Tensor Activation torch_ones tensor_scale ln MLP MLP_new).
Abbreviation sample :=
  (sample Tensor Generator tensor_exp tensor_sum_dim1 MLP MLP_call
          Normal_sample Normal_log_prob).
Abbreviation forward :=
  (forward Tensor Generator tensor_exp tensor_sum_dim1 MLP MLP_call
           Normal_sample Normal_log_prob).
Abbreviation logpdf :=
  (logpdf Tensor tensor_exp tensor_sum_dim1 MLP MLP_call Normal_log_prob).

(** A call of [logpdf] with a single positional argument raises. *)
Lemma logpdf_one_argument (self : Policy) (a : Tensor) :
  logpdf self [a] = Raise TypeError.
Proof. reflexivity. Qed.

(** With both arguments it is the summed log-density under [policy(obs)]. *)
Lemma logpdf_two_arguments (self : Policy) (obs action : Tensor) :
  logpdf self [obs; action] =
  Ok (tensor_sum_dim1
        (Normal_log_prob (policy Tensor tensor_exp MLP MLP_call self obs) action)).
Proof. reflexivity. Qed.

(** C1.  [sample] returns no pair: after the draw, line 51 calls
    [self.logpdf(actions)] without the observation, and the call raises
    [TypeError] for every policy, observation and draw. *)
Theorem sample_raises_TypeError (self : Policy) (obs : Tensor) (g : Generator) :
  fst (sample self obs g) = Raise TypeError.
Proof.
  unfold Gaussian.sample.
  destruct (Normal_sample _ g) as [actions g']. cbn [fst].
  now rewrite logpdf_one_argument.
Qed.

(** C2.  With [adaptive_std] true [__init__] raises [NotImplementedError]
    (the spec's NotSupportedError); with [adaptive_std] false it raises
    [TypeError], from [nn.Module.__init__()] called without [self]: no
    construction succeeds. *)
Theorem init_always_raises
    (env_spec : EnvSpec) (hidden_sizes : list nat) (learn_std : bool)
    (init_std : float) (hidden_nonlinearity output_nonlinearity : Activation) :
  init env_spec hidden_sizes learn_std init_std true
       hidden_nonlinearity output_nonlinearity = Raise NotImplementedError /\
  init env_spec hidden_sizes learn_std init_std false
       hidden_nonlinearity output_nonlinearity = Raise TypeError.
Proof. split; reflexivity. Qed.

(** C7.  With [learn_std] false and [init_std = 1.0], [__init__] raises
    before [log_std] is set; and lines 38 to 44, which set it, make it a
    trainable parameter whatever [learn_std] is: the argument is never
    read. *)
Theorem log_std_trainable_whatever_learn_std
    (env_spec : EnvSpec) (hidden_sizes : list nat) (learn_std : bool)
    (hidden_nonlinearity output_nonlinearity : Activation) :
  init env_spec hidden_sizes false 1 false
       hidden_nonlinearity output_nonlinearity = Raise TypeError /\
  init_attributes env_spec hidden_sizes learn_std 1
       hidden_nonlinearity output_nonlinearity =
  Ok {| mu := MLP_new (flat_dim (observation_space env_spec))
                      (flat_dim (action_space env_spec)) hidden_sizes
                      hidden_nonlinearity output_nonlinearity;
        log_std :=
          {| data := tensor_scale (ln 1)
                       (torch_ones (flat_dim (action_space env_spec)));
             requires_grad := true |} |}.
Proof. split; reflexivity. Qed.

(** C10.  [forward] hands the observation to [sample] and so ends as
    [sample] does: after one draw from [policy(obs)] it raises [TypeError],
    for every policy, observation and generator; no pair comes back. *)
Theorem forward_raises_TypeError (self : Policy) (obs : Tensor) (g : Generator) :
  forward self obs g = sample self obs g /\
  forward self obs g =
  (Raise TypeError,
   snd (Normal_sample (policy Tensor tensor_exp MLP MLP_call self obs) g)).
Proof.
  split; [reflexivity|].
  unfold Gaussian.forward, Gaussian.sample.
  destruct (Normal_sample _ g) as [actions g']. cbn [snd].
  now rewrite logpdf_one_argument.
Qed.

End Policy.

End GaussianTheory.

(** ** More about binary64 and the array operations *)

Module Float64More.

Local Open Scope float_scope.

Lemma SFsub_diag (s : bool) (m : positive) (e : Z) :
  SF64sub (S754_finite s m e) (S754_finite s m e) = S754_zero false.
Proof.
  unfold SF64sub, SFsub. rewrite Z.min_id.
  unfold shl_align. rewrite Z.sub_diag. cbn [fst].
  replace (cond_Zopp s (Z.pos m) - cond_Zopp s (Z.pos m))%Z with 0%Z by lia.
  reflexivity.
Qed.

Lemma not_neg_zero (x : float) :
  PrimFloat.Leibniz.eqb x (-0) = false -> Prim2SF x <> S754_zero true.
Proof.
  intros H E. change (S754_zero true) with (Prim2SF (-0)) in E.
  apply Prim2SF_inj in E. apply FloatAxioms.Leibniz.eqb_spec in E.
  rewrite E in H. discriminate H.
Qed.

(** Without noise ([sigma = 0]) a component that sits at [mu] stays there:
    [mu - mu] is [+0], so are its product with a finite [theta] and the
    sum with [0 * n], up to sign, and adding a zero to [mu] gives [mu]
    unless [mu] is the negative zero. *)
Lemma rest_at_mu_step (mu theta n : float) :
  is_finite mu = true -> PrimFloat.Leibniz.eqb mu (-0) = false ->
  is_finite theta = true -> is_finite n = true ->
  mu + (theta * (mu - mu) + 0 * n) = mu.
Proof.
  intros Hm Hz Ht Hn. apply not_neg_zero in Hz.
  apply Float64.is_finite_SF in Hm, Ht, Hn.
  apply Prim2SF_inj.
  rewrite add_spec, add_spec, !mul_spec, sub_spec.
  change (Prim2SF 0) with (S754_zero false).
  destruct Hm as [sm|sm mm em].
  - destruct sm; [congruence|].
    destruct Ht as [st|st mt et], Hn as [sn|sn mn en]; destruct st, sn;
      reflexivity.
  - rewrite SFsub_diag.
    destruct Ht as [st|st mt et], Hn as [sn|sn mn en]; destruct st, sn;
      reflexivity.
Qed.

(** Clipping one non-NaN number under ordered bounds. *)
Lemma clip_saturate (s l h : float) :
  is_nan s = false -> (l <=? h) = true ->
  np.fmin (np.fmax s l) h = Trace.saturate l h s.
Proof.
  intros Hs Hb. destruct (Float64.leb_true_not_nan _ _ Hb) as [Hl _].
  unfold Trace.saturate, np.fmax. rewrite Hs.
  destruct (l <? s); unfold np.fmin.
  - now rewrite Hs.
  - now rewrite Hl.
Qed.

End Float64More.

Module NumpyMore.

Import np NumpyFacts.
Local Open Scope float_scope.

Lemma broadcast_mismatch f (a b : ndarray) :
  length a <> length b -> length a <> 1%nat -> length b <> 1%nat ->
  broadcast f a b = Raise ValueError.
Proof.
  intros Hab Ha Hb. unfold broadcast.
  apply Nat.eqb_neq in Hab. rewrite Hab.
  destruct a as [|x [|x' a]]; destruct b as [|y [|y' b]];
    simpl in *; congruence.
Qed.

Lemma clip_same_length (s lo hi : ndarray) :
  length lo = length s -> length hi = length s ->
  clip s lo hi = Ok (zip_with fmin (zip_with fmax s lo) hi).
Proof.
  intros Hlo Hhi. unfold clip.
  rewrite broadcast_same_length by congruence. cbn [Py.bind].
  apply broadcast_same_length. rewrite zip_with_length; congruence.
Qed.

Lemma randn_ext n (g g' : RandomState) :
  (forall i, (i < n)%nat -> g i = g' i) ->
  fst (randn n g) = fst (randn n g').
Proof.
  intros H. unfold randn. cbn [fst]. apply map_ext_in.
  intros i Hi. apply in_seq in Hi. apply H. lia.
Qed.

End NumpyMore.

(** ** Runs of the OU process *)

Module OURuns.

Import np OU Spec Script Trace NumpyFacts NumpyMore OUTheory.
Local Open Scope float_scope.

Lemma after_succ_r (k : nat) (w : World) :
  after (S k) w = after k (snd (evolve_state w)).
Proof. unfold after. apply Nat.iter_succ_r. Qed.

Lemma after_succ (k : nat) (w : World) :
  after (S k) w = snd (evolve_state (after k w)).
Proof. reflexivity. Qed.

Lemma evolve_state_world (self : OUStrategy) (g : RandomState) :
  snd (evolve_state (self, g)) =
  (set_state self
     (zip_with (euler_step (theta self) (mu self) (sigma self))
               (state self) (fst (randn (length (state self)) g))),
   fun i => g (length (state self) + i)%nat).
Proof. now rewrite evolve_state_eq. Qed.

(** A non-empty state evolves to a non-empty one, which is what is
    returned. *)
Lemma evolve_state_nonempty (self : OUStrategy) (g : RandomState) :
  state self <> [] ->
  exists v xs,
    fst (evolve_state (self, g)) = Ok (v :: xs) /\
    state (fst (snd (evolve_state (self, g)))) = v :: xs.
Proof.
  intros Hne. rewrite evolve_state_eq. cbn [fst snd set_state state].
  destruct (state self) as [|x xs]; [congruence|].
  cbn [length randn fst seq map zip_with]. eauto.
Qed.

(** One step reads the first [len(state)] draws and nothing else. *)
Lemma evolve_state_ext (self : OUStrategy) (g g' : RandomState) :
  (forall i, (i < length (state self))%nat -> g i = g' i) ->
  fst (evolve_state (self, g)) = fst (evolve_state (self, g')) /\
  fst (snd (evolve_state (self, g))) = fst (snd (evolve_state (self, g'))).
Proof.
  intros H. rewrite !evolve_state_eq. cbn [fst snd].
  now rewrite (randn_ext _ g g' H).
Qed.

Lemma all_eq_repeat (l : ndarray) (c : float) :
  (forall x, In x l -> x = c) -> l = repeat c (length l).
Proof.
  induction l as [|x l IH]; intros H; [reflexivity|].
  cbn. f_equal; [apply H; now left|]. apply IH.
  intros y Hy. apply H. now right.
Qed.

Lemma set_state_same (self : OUStrategy) : set_state self (state self) = self.
Proof. now destruct self. Qed.

Section Runs.

Variable flat_dim : Space -> nat.
Variables Obs Aux : Type.

(** X1.  When the bounds, the state and the base action all have one
    length, [get_action] does not raise, and the action it returns has
    that length. *)
Theorem get_action_succeeds
    t observation (policy : Policy Obs Aux) self g lo hi sh :
  action_space self = Box lo hi sh ->
  length lo = length (state self) ->
  length hi = length (state self) ->
  length (fst (fst (policy observation g))) = length (state self) ->
  exists r,
    fst (get_action Obs Aux t observation policy (self, g)) = Ok r /\
    length r = length (state self).
Proof.
  intros Hbox Hlo Hhi Ha.
  rewrite (get_action_result Obs Aux t observation policy self g lo hi sh Hbox).
  rewrite get_action_world.
  pose proof (evolve_state_length self (snd (policy observation g))) as Hn.
  set (x' := state (fst (snd (evolve_state (self, snd (policy observation g)))))) in *.
  unfold add. rewrite broadcast_same_length by congruence. cbn [Py.bind].
  rewrite clip_same_length
    by (rewrite zip_with_length; congruence).
  eexists. split; [reflexivity|].
  assert (L1 : length (zip_with PrimFloat.add (fst (fst (policy observation g))) x')
               = length (state self))
    by (rewrite zip_with_length; congruence).
  assert (L2 : length (zip_with fmax
                 (zip_with PrimFloat.add (fst (fst (policy observation g))) x') lo)
               = length (state self))
    by (rewrite zip_with_length; congruence).
  rewrite zip_with_length; congruence.
Qed.

(** X2.  When the base action and the state have different lengths,
    neither of them 1, [get_action] raises [ValueError]; by then the noise
    state has already taken its step. *)
Theorem get_action_shape_mismatch
    t observation (policy : Policy Obs Aux) self g :
  length (fst (fst (policy observation g))) <> length (state self) ->
  length (fst (fst (policy observation g))) <> 1%nat ->
  length (state self) <> 1%nat ->
  fst (get_action Obs Aux t observation policy (self, g)) = Raise ValueError /\
  state (fst (snd (get_action Obs Aux t observation policy (self, g)))) =
  zip_with (euler_step (theta self) (mu self) (sigma self)) (state self)
    (fst (randn (length (state self)) (snd (policy observation g)))).
Proof.
  intros Hne Ha Hs. split.
  - unfold get_action.
    destruct (policy observation g) as [[action aux] g1]. cbn [fst snd] in *.
    rewrite evolve_state_eq. cbn [fst snd].
    unfold add at 1. rewrite broadcast_mismatch; [reflexivity| | |];
      rewrite ?zip_with_length; rewrite ?randn_length; auto.
  - rewrite get_action_world. now rewrite evolve_state_eq.
Qed.

(** X3.  Under ordered bounds a component of the returned action is the
    sum of base action and noise itself when the sum lies strictly between
    the bounds; it is the upper bound when the sum has reached or passed
    it (or when the two bounds are equal), and the lower bound when the sum
    has reached or passed that one (the sum not being NaN).  On a tie the
    bound is what comes back, with its own sign when it is a zero. *)
Theorem get_action_saturates
    t observation (policy : Policy Obs Aux) self g lo hi sh r w' i v a n l h :
  action_space self = Box lo hi sh ->
  get_action Obs Aux t observation policy (self, g) = (Ok r, w') ->
  nth_error r i = Some v ->
  bget (fst (fst (policy observation g))) i = Some a ->
  bget (state (fst w')) i = Some n ->
  bget lo i = Some l ->
  bget hi i = Some h ->
  (l <=? h) = true ->
  is_nan (a + n) = false ->
  v = saturate l h (a + n).
Proof.
  intros Hbox Hrun Hv Ha Hn Hl Hh Hb Hnan.
  destruct (get_action_component Obs Aux _ _ _ _ _ _ _ _ _ _ _ _ Hbox Hrun Hv)
    as (a' & n' & l' & h' & Ha' & Hn' & Hl' & Hh' & ->).
  rewrite Ha in Ha'. rewrite Hn in Hn'. rewrite Hl in Hl'. rewrite Hh in Hh'.
  injection Ha' as <-. injection Hn' as <-.
  injection Hl' as <-. injection Hh' as <-.
  now apply Float64More.clip_saturate.
Qed.

(** X4.  Once the base policy has returned, [get_action] changes nothing
    of the instance but [state], and takes from the random source, after
    whatever the policy took, exactly one draw per component of the state;
    this also when the sum or the clipping then raises. *)
Theorem get_action_frame
    t observation (policy : Policy Obs Aux) (self : OUStrategy) (g : RandomState) :
  let w' := snd (get_action Obs Aux t observation policy (self, g)) in
  mu (fst w') = mu self /\ theta (fst w') = theta self /\
  sigma (fst w') = sigma self /\ action_space (fst w') = action_space self /\
  forall i, snd w' i = snd (policy observation g) (length (state self) + i)%nat.
Proof.
  cbv zeta. rewrite get_action_world, evolve_state_world.
  cbn [fst snd set_state mu theta sigma action_space]. auto.
Qed.

(** X5.  [reset] after an action gives back the instance as [__init__]
    made it. *)
Theorem reset_restores_construction
    env_spec m th sg self0 t observation (policy : Policy Obs Aux) g :
  __init__ flat_dim env_spec m th sg = Ok self0 ->
  reset flat_dim (fst (snd (get_action Obs Aux t observation policy (self0, g))))
  = self0.
Proof.
  unfold __init__.
  destruct (is_Box _); [|discriminate].
  destruct (Nat.eqb _ 1); [|discriminate].
  cbn [Py.assert Py.bind]. intros [= <-].
  rewrite get_action_world, evolve_state_world.
  reflexivity.
Qed.

End Runs.

(** X6.  From a non-empty state the loop of the script never raises: [n]
    rounds append the first components of the [n] successive states, and
    leave the world [n] steps on. *)
Theorem collect_states_trace (n : nat) (states : list float) self g :
  state self <> [] ->
  collect_states n states (self, g) =
  (inl (states ++ map (fun k => first (fst (after (S k) (self, g)))) (seq 0 n)),
   after n (self, g)).
Proof.
  revert states self g. induction n as [|n IH]; intros states self g Hne.
  - cbn. now rewrite app_nil_r.
  - destruct (evolve_state_nonempty self g Hne) as (v & xs & Hr & Hs).
    rewrite after_succ_r. cbn [collect_states seq map].
    destruct (evolve_state (self, g)) as [r [self' g']] eqn:E.
    cbn [fst snd] in Hr, Hs. subst r.
    rewrite IH by (rewrite Hs; discriminate).
    f_equal. f_equal. rewrite <- app_assoc. f_equal. cbn [app]. f_equal.
    + change (after 1 (self, g)) with (snd (evolve_state (self, g))).
      rewrite E. unfold first. cbn [fst snd]. now rewrite Hs.
    + rewrite <- seq_shift, map_map. apply map_ext. intros k.
      now rewrite (after_succ_r (S k)), E.
Qed.

(** X7.  From an empty state (a box of shape [(0,)]) the first round
    raises [IndexError]; no draw is taken, and the state stays empty. *)
Theorem collect_states_empty (n : nat) (states : list float) self g :
  state self = [] ->
  collect_states (S n) states (self, g) = (inr IndexError, (self, g)).
Proof.
  intros He. cbn [collect_states]. rewrite evolve_state_eq, He.
  cbn. rewrite <- He. now rewrite set_state_same.
Qed.

(** X8.  What [n] rounds collect, and the instance they leave, depend on
    the random source only through its first [n * len(state)] draws. *)
Theorem collect_states_reproducible
    (n : nat) (states : list float) self (g g' : RandomState) :
  (forall i, (i < n * length (state self))%nat -> g i = g' i) ->
  fst (collect_states n states (self, g)) =
  fst (collect_states n states (self, g')) /\
  fst (snd (collect_states n states (self, g))) =
  fst (snd (collect_states n states (self, g'))).
Proof.
  revert states self g g'. induction n as [|n IH]; intros states self g g' H.
  - now cbn.
  - cbn [collect_states].
    destruct (evolve_state_ext self g g') as [Hr Hs].
    { intros i Hi. apply H. lia. }
    pose proof (evolve_state_length self g) as Hlen.
    pose proof (evolve_state_world self g) as Hw.
    pose proof (evolve_state_world self g') as Hw'.
    destruct (evolve_state (self, g)) as [r [self1 g1]].
    destruct (evolve_state (self, g')) as [r' [self1' g1']].
    cbn [fst snd] in *. subst r' self1'.
    injection Hw as _ Hg1. injection Hw' as _ Hg1'.
    destruct r as [[|x0 xs]|e]; cbn [fst snd]; auto.
    apply IH. intros i Hi. rewrite Hg1, Hg1'. apply H. rewrite Hlen in Hi. lia.
Qed.

(** X9.  Without noise the process rests at [mu]: with [sigma = 0], a
    finite [theta], finite draws and every component at a finite [mu]
    other than the negative zero, the instance is the same after any
    number of steps. *)
Theorem rest_at_mu (k : nat) self g :
  sigma self = 0 ->
  is_finite (theta self) = true ->
  is_finite (mu self) = true ->
  PrimFloat.Leibniz.eqb (mu self) (-0) = false ->
  (forall x, In x (state self) -> x = mu self) ->
  (forall i, is_finite (g i) = true) ->
  fst (after k (self, g)) = self.
Proof.
  intros Hs Ht Hm Hz Hx Hg.
  assert (H : fst (after k (self, g)) = self /\
              forall i, is_finite (snd (after k (self, g)) i) = true).
  { induction k as [|k [IHs IHg]]; [now split|].
    rewrite after_succ.
    destruct (after k (self, g)) as [self' g']. cbn [fst snd] in *.
    subst self'. rewrite evolve_state_world. cbn [fst snd]. split; [|auto].
    rewrite (zip_with_repeat _ _ _ (mu self)).
    - rewrite <- (all_eq_repeat _ _ Hx). apply set_state_same.
    - now rewrite randn_length.
    - intros x n Ix In_. apply randn_In in In_. destruct In_ as [j ->].
      rewrite (Hx x Ix). unfold euler_step. rewrite Hs.
      now apply Float64More.rest_at_mu_step. }
  apply H.
Qed.

(** *** Runs on concrete inputs *)

Lemma get_action_succeeds_witness :
  exists r,
    fst (get_action unit unit 0 tt (const_policy [0.875])
           (ou unit_box 0 default_theta default_sigma [5], half_draws)) = Ok r /\
    length r = 1%nat.
Proof.
  exact (get_action_succeeds unit unit 0%Z tt (const_policy [0.875])
           (ou unit_box 0 default_theta default_sigma [5]) half_draws
           [-1] [1] [1%nat] eq_refl eq_refl eq_refl eq_refl).
Defined.

(** A base action of three components against a state of two. *)
Lemma get_action_shape_mismatch_witness :
  let self := ou (Box [-1; -1] [1; 1] [2%nat]) 0 1 0 [4; 8] in
  fst (get_action unit unit 0 tt (const_policy [0; 0; 0]) (self, half_draws))
  = Raise ValueError /\
  state (fst (snd (get_action unit unit 0 tt (const_policy [0; 0; 0])
                     (self, half_draws)))) = [0; 0].
Proof.
  intros self.
  apply (get_action_shape_mismatch unit unit 0%Z tt (const_policy [0; 0; 0])
           self half_draws); cbn; lia.
Defined.

(** The spec's example again: the sum [0.875 + 4.4] is above the upper
    bound [1]. *)
Lemma get_action_saturates_witness :
  let self := ou unit_box 0 default_theta default_sigma [5] in
  let run := get_action unit unit 0 tt (const_policy [0.875]) (self, half_draws) in
  fst run = Ok [1] /\
  1 = saturate (-1) 1 (0.875 + 0x1.199999999999ap+2).
Proof.
  intros self run. split; [reflexivity|].
  exact (get_action_saturates unit unit 0%Z tt (const_policy [0.875])
           self half_draws [-1] [1] [1%nat] [1] (snd run) 0%nat
           1 0.875 0x1.199999999999ap+2 (-1) 1
           eq_refl eq_refl eq_refl eq_refl eq_refl eq_refl eq_refl
           eq_refl eq_refl).
Defined.

Lemma reset_restores_construction_witness :
  let self0 := ou unit_box 0 default_theta default_sigma [0] in
  reset flat_dim_of
    (fst (snd (get_action unit unit 0 tt (const_policy [0.5]) (self0, half_draws))))
  = self0.
Proof.
  intros self0.
  exact (reset_restores_construction flat_dim_of unit unit unit_env
           0 default_theta default_sigma self0 0%Z tt (const_policy [0.5])
           half_draws eq_refl).
Defined.

(** The script itself: 1000 samples, whatever the draws. *)
Lemma collect_states_trace_witness :
  let self0 := ou unit_box 0 default_theta default_sigma [0] in
  main flat_dim_of half_draws =
  inl (map (fun k => first (fst (after (S k) (self0, half_draws)))) (seq 0 1000)).
Proof.
  intros self0.
  assert (Hne : state self0 <> []) by discriminate.
  exact (f_equal fst (collect_states_trace 1000 [] self0 half_draws Hne)).
Defined.

Lemma collect_states_empty_witness :
  let self := ou (Box [] [] [0%nat]) 0 default_theta default_sigma [] in
  collect_states 1 [] (self, half_draws) = (inr IndexError, (self, half_draws)).
Proof.
  intros self. exact (collect_states_empty 0 [] self half_draws eq_refl).
Defined.

(** Two sources that agree on the first three draws only. *)
Lemma collect_states_reproducible_witness :
  let self := ou unit_box 0 default_theta default_sigma [0] in
  let g' : RandomState := fun i => if Nat.ltb i 3 then 0.5 else 2 in
  fst (collect_states 3 [] (self, half_draws)) =
  fst (collect_states 3 [] (self, g')) /\
  fst (snd (collect_states 3 [] (self, half_draws))) =
  fst (snd (collect_states 3 [] (self, g'))).
Proof.
  intros self g'.
  apply (collect_states_reproducible 3 [] self half_draws g').
  intros i Hi. unfold g', half_draws.
  destruct (Nat.ltb_spec i 3) as [_|Hge]; [reflexivity|].
  cbn in Hi. lia.
Defined.

Lemma rest_at_mu_witness :
  let self := ou unit_box 0.5 0.25 0 [0.5] in
  fst (after 10 (self, half_draws)) = self.
Proof.
  intros self.
  apply (rest_at_mu 10 self half_draws); try reflexivity.
  intros x [<-|[]]. reflexivity.
Defined.

End OURuns.
